(** * The Mininet topology script of the SDN dynamic-routing project

    A shallow embedding of [mininet/topology.py].  The script is one
    straight-line function, [createTopology], that drives the Mininet
    object API: it reads the controller address from the process
    environment, builds a network of five switches and five hosts,
    starts it, waits for the switches to reach the controller, probes
    reachability, hands over to the interactive prompt and finally stops
    the network.

    The script is embedded as a computation in a small state monad whose
    state is the log of the library calls made so far, with the arguments
    the script passes.  Everything the script cannot decide by itself
    (the environment, whether the switches ever connect, which hosts
    reach each other, when the operator leaves the prompt) is a field of
    a [World]. *)

From Stdlib Require Import ZArith String Ascii List Lia.
From stdpp Require Import base option list strings gmap.

Local Open Scope Z_scope.
Local Open Scope string_scope.
Local Open Scope list_scope.
Local Open Scope stdpp_scope.

(** ** Values passed to the library *)

(** The classes the script hands to the library as arguments. *)
Inductive ControllerCls := RemoteController.
Inductive SwitchCls := OVSKernelSwitch.
Inductive LinkCls := TCLink.

(** The handle returned by the [Mininet(...)] constructor. *)
Inductive Net := TheNet.

(** A node object, as returned by [net.addSwitch] and [net.addHost];
    [net.addLink] receives two of them. *)
Inductive Node :=
| Switch (name : string) (cls : SwitchCls) (protocols : string)
| Host (name ip mac : string).

Definition node_name (n : Node) : string :=
  match n with
  | Switch name _ _ => name
  | Host name _ _ => name
  end.

Definition is_switch (n : Node) : bool :=
  match n with Switch _ _ _ => true | Host _ _ _ => false end.

Definition is_host (n : Node) : bool :=
  match n with Switch _ _ _ => false | Host _ _ _ => true end.

(** One entry of the log: a call of the script into the library (or
    into [os.environ]), with its actual arguments. *)
Inductive Call :=
| CallEnvironGet (key dflt : string)
| CallSetLogLevel (level : string)
| CallInfo (msg : string)
| CallMininet (controller : option ControllerCls) (switch : SwitchCls)
              (link : LinkCls) (autoSetMacs : bool)
| CallAddController (name : string) (controller : ControllerCls)
                    (ip : string) (port : Z)
| CallAddSwitch (name : string) (cls : SwitchCls) (protocols : string)
| CallAddHost (name ip mac : string)
| CallAddLink (node1 node2 : Node) (cls : LinkCls) (bw : Z) (delay : string)
| CallStart
| CallWaitConnected (timeout : option nat)
| CallPingAll
| CallCLI
| CallStop.

#[global] Instance ControllerCls_eq_dec : EqDecision ControllerCls.
Proof. solve_decision. Defined.
#[global] Instance SwitchCls_eq_dec : EqDecision SwitchCls.
Proof. solve_decision. Defined.
#[global] Instance LinkCls_eq_dec : EqDecision LinkCls.
Proof. solve_decision. Defined.
#[global] Instance Node_eq_dec : EqDecision Node.
Proof. solve_decision. Defined.
#[global] Instance Call_eq_dec : EqDecision Call.
Proof. solve_decision. Defined.

(** ** The world outside the script *)

Record World := {
  (** [os.environ] *)
  environ : gmap string string;
  (** at the k-th poll of the wait loop, does every switch report a
      session with the controller? *)
  connected : nat -> bool;
  (** does a ping from the first host reach the second? *)
  reachable : string -> string -> bool;
  (** has the operator left the prompt after k commands? *)
  cli_exited : nat -> bool
}.

(** ** The monad of the script *)

(** [fuel] bounds how many polls of a blocking library call are
    observed; a run that is still inside a blocking call when the fuel
    is used up is [Pending]. *)
Record State := { log : list Call; fuel : nat }.

Inductive Outcome (A : Type) :=
| Returned (a : A)
| Pending.
Arguments Returned {A} a.
Arguments Pending {A}.

Definition M (A : Type) : Type := State -> State * Outcome A.

Definition ret {A} (a : A) : M A := fun s => (s, Returned a).

Definition bind {A B} (m : M A) (k : A -> M B) : M B := fun s =>
  match m s with
  | (s', Returned a) => k a s'
  | (s', Pending) => (s', Pending)
  end.

#[global] Instance M_ret : MRet M := @ret.
#[global] Instance M_bind : MBind M := fun A B k m => bind m k.

(** A library call that returns at once: it is appended to the log. *)
Definition call {A} (c : Call) (result : A) : M A := fun s =>
  ({| log := log s ++ [c]; fuel := fuel s |}, Returned result).

(** Modelled from the spec: the blocking loops of the library, which is
    not part of this repository.  A blocking call polls [ready] until it
    holds; with a timeout (counted in polls) it gives up once the poll
    count exceeds it, and with no timeout it polls for ever.  The result
    is whether [ready] was reached, with the fuel left; [None] when the
    fuel ran out inside the loop. *)
Fixpoint block_until (ready : nat -> bool) (timeout : option nat)
         (k n : nat) : option (bool * nat) :=
  match n with
  | O => None
  | S n' =>
      if ready k then Some (true, n')
      else match timeout with
           | Some t => if (t <? k)%nat then Some (false, n')
                       else block_until ready timeout (S k) n'
           | None => block_until ready timeout (S k) n'
           end
  end.

(** A blocking library call: logged when it is made, then polled. *)
Definition blocking_call (c : Call) (ready : nat -> bool)
           (timeout : option nat) : M bool := fun s =>
  let l := log s ++ [c] in
  match block_until ready timeout 0 (fuel s) with
  | Some (r, n) => ({| log := l; fuel := n |}, Returned r)
  | None => ({| log := l; fuel := 0 |}, Pending)
  end.

(** The log so far, for the library calls whose result depends on what
    was created before. *)
Definition get_log : M (list Call) := fun s => (s, Returned (log s)).

(** ** Reading the log *)

Record Link := {
  node1 : Node;
  node2 : Node;
  link_cls : LinkCls;
  bw : Z;
  delay : string
}.

#[global] Instance Link_eq_dec : EqDecision Link.
Proof. solve_decision. Defined.

Record Controller := {
  ctrl_name : string;
  ctrl_cls : ControllerCls;
  ctrl_ip : string;
  ctrl_port : Z
}.

Definition controller_of (c : Call) : option Controller :=
  match c with
  | CallAddController name cls ip port =>
      Some {| ctrl_name := name; ctrl_cls := cls; ctrl_ip := ip; ctrl_port := port |}
  | _ => None
  end.

Definition switch_of (c : Call) : option Node :=
  match c with
  | CallAddSwitch name cls protocols => Some (Switch name cls protocols)
  | _ => None
  end.

Definition host_of (c : Call) : option Node :=
  match c with
  | CallAddHost name ip mac => Some (Host name ip mac)
  | _ => None
  end.

Definition node_of (c : Call) : option Node :=
  match c with
  | CallAddSwitch name cls protocols => Some (Switch name cls protocols)
  | CallAddHost name ip mac => Some (Host name ip mac)
  | _ => None
  end.

Definition link_of (c : Call) : option Link :=
  match c with
  | CallAddLink n1 n2 cls b d =>
      Some {| node1 := n1; node2 := n2; link_cls := cls; bw := b; delay := d |}
  | _ => None
  end.

(** The controllers, switches, hosts and links the log has created, in
    creation order. *)
Definition controllers (l : list Call) : list Controller := omap controller_of l.
Definition switches (l : list Call) : list Node := omap switch_of l.
Definition hosts (l : list Call) : list Node := omap host_of l.
Definition nodes (l : list Call) : list Node := omap node_of l.
Definition links (l : list Call) : list Link := omap link_of l.

(** The names at the two ends of a link. *)
Definition endpoints (k : Link) : string * string :=
  (node_name (node1 k), node_name (node2 k)).

(** ** The library API, as the script uses it *)

(** The line feed that ends the script's log messages. *)
Definition nl : string := String (ascii_of_nat 10) EmptyString.

(** What [pingAll] measured: packets sent and packets answered. *)
Record PingResult := { sent : nat; received : nat }.

Section Library.
Variable w : World.

(** [os.environ.get(key, default)] *)
Definition environ_get (key dflt : string) : M string :=
  call (CallEnvironGet key dflt) (default dflt (environ w !! key)).

Definition setLogLevel (level : string) : M unit :=
  call (CallSetLogLevel level) tt.

Definition info (msg : string) : M unit :=
  call (CallInfo msg) tt.

Definition Mininet (controller : option ControllerCls) (switch : SwitchCls)
           (link : LinkCls) (autoSetMacs : bool) : M Net :=
  call (CallMininet controller switch link autoSetMacs) TheNet.

Definition addController (net : Net) (name : string)
           (controller : ControllerCls) (ip : string) (port : Z) : M unit :=
  call (CallAddController name controller ip port) tt.

Definition addSwitch (net : Net) (name : string) (cls : SwitchCls)
           (protocols : string) : M Node :=
  call (CallAddSwitch name cls protocols) (Switch name cls protocols).

Definition addHost (net : Net) (name ip mac : string) : M Node :=
  call (CallAddHost name ip mac) (Host name ip mac).

Definition addLink (net : Net) (n1 n2 : Node) (cls : LinkCls) (b : Z)
           (d : string) : M unit :=
  call (CallAddLink n1 n2 cls b d) tt.

Definition start (net : Net) : M unit := call CallStart tt.

(** [net.waitConnected(timeout)]; the script passes no timeout. *)
Definition waitConnected (net : Net) (timeout : option nat) : M bool :=
  blocking_call (CallWaitConnected timeout) (connected w) timeout.

(** Modelled from the spec: the all-pairs reachability probe of the
    library, which is not part of this repository.  Every host pings
    every other host; the result counts the pings sent and answered. *)
Definition ping_pairs (hs : list string) : list (string * string) :=
  src ← hs; dst ← hs; if decide (src = dst) then [] else [(src, dst)].

Definition probe (hs : list string) : PingResult :=
  let pairs := ping_pairs hs in
  {| sent := length pairs;
     received := length (filter (fun p => reachable w p.1 p.2 = true) pairs) |}.

Definition pingAll (net : Net) : M PingResult :=
  l ← get_log;
  call CallPingAll (probe (node_name <$> hosts l)).

(** [CLI(net)]: the prompt returns when the operator leaves it. *)
Definition CLI (net : Net) : M unit :=
  blocking_call CallCLI (cli_exited w) None ;; mret tt.

Definition stop (net : Net) : M unit := call CallStop tt.

(** ** The script *)

Definition createTopology : M unit :=
  (* Get ONOS controller IP from environment (default to localhost) *)
  onos_ip ← environ_get "ONOS_IP" "127.0.0.1";
  info ("*** Creating network with ONOS controller at " +:+ onos_ip +:+ nl) ;;
  (* Create Mininet network *)
  net ← Mininet None OVSKernelSwitch TCLink true;
  info ("*** Adding ONOS controller" +:+ nl) ;;
  (* Add remote ONOS controller *)
  addController net "c0" RemoteController onos_ip 6653 ;;
  info ("*** Adding switches" +:+ nl) ;;
  (* Add 5 switches with OpenFlow 1.3 *)
  s1 ← addSwitch net "s1" OVSKernelSwitch "OpenFlow13";
  s2 ← addSwitch net "s2" OVSKernelSwitch "OpenFlow13";
  s3 ← addSwitch net "s3" OVSKernelSwitch "OpenFlow13";
  s4 ← addSwitch net "s4" OVSKernelSwitch "OpenFlow13";
  s5 ← addSwitch net "s5" OVSKernelSwitch "OpenFlow13";
  info ("*** Adding hosts" +:+ nl) ;;
  (* Add 5 hosts with specific IPs *)
  h1 ← addHost net "h1" "10.0.0.1/24" "00:00:00:00:00:01";
  h2 ← addHost net "h2" "10.0.0.2/24" "00:00:00:00:00:02";
  h3 ← addHost net "h3" "10.0.0.3/24" "00:00:00:00:00:03";
  h4 ← addHost net "h4" "10.0.0.4/24" "00:00:00:00:00:04";
  h5 ← addHost net "h5" "10.0.0.5/24" "00:00:00:00:00:05";
  info ("*** Creating links" +:+ nl) ;;
  (* Host-to-switch links (100 Mbps) *)
  addLink net h1 s1 TCLink 100 "5ms" ;;
  addLink net h2 s2 TCLink 100 "5ms" ;;
  addLink net h3 s3 TCLink 100 "5ms" ;;
  addLink net h4 s4 TCLink 100 "5ms" ;;
  addLink net h5 s5 TCLink 100 "5ms" ;;
  (* Switch-to-switch links (100 Mbps) - Creates mesh topology *)
  (* Primary path: s1 <-> s2 *)
  addLink net s1 s2 TCLink 100 "10ms" ;;
  (* Alternative paths (X topology) *)
  addLink net s1 s3 TCLink 100 "10ms" ;;
  addLink net s1 s4 TCLink 100 "10ms" ;;
  addLink net s2 s3 TCLink 100 "10ms" ;;
  addLink net s2 s4 TCLink 100 "10ms" ;;
  (* Lower tier connections *)
  addLink net s3 s4 TCLink 100 "10ms" ;;
  addLink net s3 s5 TCLink 100 "10ms" ;;
  info ("*** Starting network" +:+ nl) ;;
  start net ;;
  info ("*** Network topology created successfully!" +:+ nl) ;;
  info ("*** Topology summary:" +:+ nl) ;;
  info ("    - 5 switches (s1-s5)" +:+ nl) ;;
  info ("    - 5 hosts (h1-h5) with IPs 10.0.0.1-5" +:+ nl) ;;
  info ("    - Multiple redundant paths for testing" +:+ nl) ;;
  info ("    - All links: 100 Mbps bandwidth" +:+ nl) ;;
  info nl ;;
  info ("*** Testing connectivity..." +:+ nl) ;;
  (* Wait for controller connection *)
  info ("*** Waiting for switches to connect to ONOS..." +:+ nl) ;;
  waitConnected net None ;;
  info ("*** Running pingall to discover hosts..." +:+ nl) ;;
  pingAll net ;;
  info (nl +:+ "*** Network is ready!" +:+ nl) ;;
  info ("*** You can now:" +:+ nl) ;;
  info ("    1. Test connectivity: mininet> pingall" +:+ nl) ;;
  info ("    2. Generate traffic: mininet> iperf h1 h2" +:+ nl) ;;
  info ("    3. Create congestion: mininet> h1 iperf -c 10.0.0.2 -b 85M -t 60" +:+ nl) ;;
  info ("    4. Monitor links in ONOS GUI: http://localhost:8181/onos/ui" +:+ nl) ;;
  info nl ;;
  (* Start CLI *)
  CLI net ;;
  info ("*** Stopping network" +:+ nl) ;;
  stop net.

(** The [__main__] block. *)
Definition main : M unit :=
  (* Set log level *)
  setLogLevel "info" ;;
  (* Create and run topology *)
  createTopology.

End Library.

(** A run of the script from an empty log, observed for [n] polls. *)
Definition init (n : nat) : State := {| log := []; fuel := n |}.
Definition run (w : World) (n : nat) : State * Outcome unit :=
  createTopology w (init n).
Definition trace (w : World) (n : nat) : list Call := log (run w n).1.
Definition outcome (w : World) (n : nat) : Outcome unit := (run w n).2.

(** The controller address the script resolves in a world. *)
Definition onos_ip (w : World) : string :=
  default "127.0.0.1" (environ w !! "ONOS_IP").

(** The library calls of a log other than its log messages. *)
Definition is_message (c : Call) : bool :=
  match c with
  | CallInfo _ | CallSetLogLevel _ => true
  | _ => false
  end.

Definition calls (l : list Call) : list Call :=
  filter (fun c => is_message c = false) l.

(** Two worlds to run the script in: a lab in which nothing is set in
    the environment, the switches connect at the third poll and the
    operator leaves the prompt after two commands; and a lab whose
    controller is never reached. *)
Definition lab_world : World :=
  {| environ := ∅;
     connected := fun k => (2 <=? k)%nat;
     reachable := fun src dst => true;
     cli_exited := fun k => (2 <=? k)%nat |}.

Definition dead_controller_world : World :=
  {| environ := {[ "ONOS_IP" := "192.168.1.50" ]};
     connected := fun _ => false;
     reachable := fun src dst => false;
     cli_exited := fun k => (2 <=? k)%nat |}.

(** ** Notions used in the statements *)

(** A run is in one of three situations: blocked in the wait for the
    controller, blocked in the prompt, or finished. *)
Inductive Stage := Waiting | Prompting | Finished.

Definition stage (w : World) (n : nat) : Stage :=
  match block_until (connected w) None 0 n with
  | None => Waiting
  | Some (_, n1) =>
      match block_until (cli_exited w) None 0 n1 with
      | None => Prompting
      | Some _ => Finished
      end
  end.

(** What the lemmas below show every run to declare. *)
Definition tc_link (n1 n2 : Node) (d : string) : Link :=
  {| node1 := n1; node2 := n2; link_cls := TCLink; bw := 100; delay := d |}.

Definition script_switches : list Node :=
  [ Switch "s1" OVSKernelSwitch "OpenFlow13";
    Switch "s2" OVSKernelSwitch "OpenFlow13";
    Switch "s3" OVSKernelSwitch "OpenFlow13";
    Switch "s4" OVSKernelSwitch "OpenFlow13";
    Switch "s5" OVSKernelSwitch "OpenFlow13" ].

Definition script_hosts : list Node :=
  [ Host "h1" "10.0.0.1/24" "00:00:00:00:00:01";
    Host "h2" "10.0.0.2/24" "00:00:00:00:00:02";
    Host "h3" "10.0.0.3/24" "00:00:00:00:00:03";
    Host "h4" "10.0.0.4/24" "00:00:00:00:00:04";
    Host "h5" "10.0.0.5/24" "00:00:00:00:00:05" ].

Definition script_links : list Link :=
  let s1 := Switch "s1" OVSKernelSwitch "OpenFlow13" in
  let s2 := Switch "s2" OVSKernelSwitch "OpenFlow13" in
  let s3 := Switch "s3" OVSKernelSwitch "OpenFlow13" in
  let s4 := Switch "s4" OVSKernelSwitch "OpenFlow13" in
  let s5 := Switch "s5" OVSKernelSwitch "OpenFlow13" in
  let h1 := Host "h1" "10.0.0.1/24" "00:00:00:00:00:01" in
  let h2 := Host "h2" "10.0.0.2/24" "00:00:00:00:00:02" in
  let h3 := Host "h3" "10.0.0.3/24" "00:00:00:00:00:03" in
  let h4 := Host "h4" "10.0.0.4/24" "00:00:00:00:00:04" in
  let h5 := Host "h5" "10.0.0.5/24" "00:00:00:00:00:05" in
  [ tc_link h1 s1 "5ms"; tc_link h2 s2 "5ms"; tc_link h3 s3 "5ms";
    tc_link h4 s4 "5ms"; tc_link h5 s5 "5ms";
    tc_link s1 s2 "10ms"; tc_link s1 s3 "10ms"; tc_link s1 s4 "10ms";
    tc_link s2 s3 "10ms"; tc_link s2 s4 "10ms"; tc_link s3 s4 "10ms";
    tc_link s3 s5 "10ms" ].

Definition add_node (x : Node) : Call :=
  match x with
  | Switch name cls protocols => CallAddSwitch name cls protocols
  | Host name ip mac => CallAddHost name ip mac
  end.

Definition add_link (k : Link) : Call :=
  CallAddLink (node1 k) (node2 k) (link_cls k) (bw k) (delay k).

Definition declaration (ip : string) : list Call :=
  [ CallEnvironGet "ONOS_IP" "127.0.0.1";
    CallMininet None OVSKernelSwitch TCLink true;
    CallAddController "c0" RemoteController ip 6653 ]
  ++ (add_node <$> script_switches)
  ++ (add_node <$> script_hosts)
  ++ (add_link <$> script_links).

Definition operation (st : Stage) : list Call :=
  [ CallStart; CallWaitConnected None ]
  ++ match st with
     | Waiting => []
     | Prompting => [ CallPingAll; CallCLI ]
     | Finished => [ CallPingAll; CallCLI; CallStop ]
     end.

(** The endpoint pairs of the links: the host-switch pairs and the
    switch-switch pairs. *)
Definition host_switch_pairs : list (string * string) :=
  [ ("h1", "s1"); ("h2", "s2"); ("h3", "s3"); ("h4", "s4"); ("h5", "s5") ].

Definition switch_switch_pairs : list (string * string) :=
  [ ("s1", "s2"); ("s1", "s3"); ("s1", "s4"); ("s2", "s3"); ("s2", "s4");
    ("s3", "s4"); ("s3", "s5") ].

(** A link between a host and a switch, and a link between two
    switches. *)
Definition host_to_switch (k : Link) : bool :=
  is_host (node1 k) && is_switch (node2 k)
  || is_switch (node1 k) && is_host (node2 k).

Definition switch_to_switch (k : Link) : bool :=
  is_switch (node1 k) && is_switch (node2 k).

(** The decimal digit [N], as the one-character string used in the
    names and addresses of the hosts. *)
Definition digit (N : nat) : string :=
  String (ascii_of_nat (48 + N)) EmptyString.

(** A world with another environment, and a world with another
    reachability relation. *)
Definition set_environ (env : gmap string string) (w : World) : World :=
  {| environ := env; connected := connected w;
     reachable := reachable w; cli_exited := cli_exited w |}.

Definition set_reachable (r : string -> string -> bool) (w : World) : World :=
  {| environ := environ w; connected := connected w;
     reachable := r; cli_exited := cli_exited w |}.

(** The controller registration of the script, at a given address. *)
Definition c0 (ip : string) : Controller :=
  {| ctrl_name := "c0"; ctrl_cls := RemoteController;
     ctrl_ip := ip; ctrl_port := 6653 |}.

(** Two links join the same unordered pair of nodes. *)
Definition same_ends (k1 k2 : Link) : Prop :=
  endpoints k1 = endpoints k2 \/
  endpoints k1 = (node_name (node2 k2), node_name (node1 k2)).

#[global] Instance same_ends_dec (k1 k2 : Link) : Decision (same_ends k1 k2).
Proof. unfold same_ends. apply _. Defined.

(** The node and the link a call creates, if any. *)
Definition created_by (c : Call) : list Node :=
  match node_of c with Some x => [x] | None => [] end.

Definition linked_by (c : Call) : list Link :=
  match link_of c with Some k => [k] | None => [] end.

(** A check of a log against the nodes and links that exist when it
    starts: every link it creates joins two nodes created before it,
    and joins a pair that no link before it joins. *)
Fixpoint well_linked (created : list Node) (linked : list Link)
         (l : list Call) : bool :=
  match l with
  | [] => true
  | c :: l' =>
      match link_of c with
      | Some k =>
          bool_decide (node1 k ∈ created) && bool_decide (node2 k ∈ created)
          && forallb (fun k' => negb (bool_decide (same_ends k' k))) linked
      | None => true
      end
      && well_linked (created ++ created_by c) (linked ++ linked_by c) l'
  end.

(** The operations of the script, in the words of its control flow. *)
Inductive Phase :=
| ReadAddress | Construct | Register | CreateSwitch | CreateHost | CreateLink
| StartNetwork | WaitSessions | Probe | Interactive | StopNetwork.

#[global] Instance Phase_eq_dec : EqDecision Phase.
Proof. solve_decision. Defined.

Definition phase_of (c : Call) : option Phase :=
  match c with
  | CallEnvironGet _ _ => Some ReadAddress
  | CallSetLogLevel _ | CallInfo _ => None
  | CallMininet _ _ _ _ => Some Construct
  | CallAddController _ _ _ _ => Some Register
  | CallAddSwitch _ _ _ => Some CreateSwitch
  | CallAddHost _ _ _ => Some CreateHost
  | CallAddLink _ _ _ _ _ => Some CreateLink
  | CallStart => Some StartNetwork
  | CallWaitConnected _ => Some WaitSessions
  | CallPingAll => Some Probe
  | CallCLI => Some Interactive
  | CallStop => Some StopNetwork
  end.

Definition phases (l : list Call) : list Phase := omap phase_of l.

(** The order of the operations of a finished run. *)
Definition script_order : list Phase :=
  [ ReadAddress; Construct; Register ]
  ++ replicate 5 CreateSwitch ++ replicate 5 CreateHost
  ++ replicate 12 CreateLink
  ++ [ StartNetwork; WaitSessions; Probe; Interactive; StopNetwork ].

(** A library call with the address argument of a controller
    registration blanked out. *)
Definition blank_ip (c : Call) : Call :=
  match c with
  | CallAddController name cls _ port =>
      CallAddController name cls EmptyString port
  | _ => c
  end.

(** A log with the two places that show the controller address blanked
    out: the text of its second entry, the message that announces the
    address, and the address argument of the controller registration. *)
Definition blank_address (l : list Call) : list Call :=
  <[1%nat := CallInfo EmptyString]> (blank_ip <$> l).

(** ** The topology as a graph *)

(** The addresses of a host; a switch has none. *)
Definition node_ip (x : Node) : option string :=
  match x with Host _ ip _ => Some ip | Switch _ _ _ => None end.

Definition node_mac (x : Node) : option string :=
  match x with Host _ _ mac => Some mac | Switch _ _ _ => None end.

(** The number in the name of a node: the name without its first
    letter. *)
Definition node_number (x : Node) : string :=
  match node_name x with
  | String _ rest => rest
  | EmptyString => EmptyString
  end.

(** A link has the node called [name] at one of its ends. *)
Definition touches (name : string) (k : Link) : bool :=
  bool_decide (node_name (node1 k) = name)
  || bool_decide (node_name (node2 k) = name).

(** The links at a node, in creation order. *)
Definition links_at (ls : list Link) (name : string) : list Link :=
  filter (fun k => touches name k = true) ls.

(** The links without one of them. *)
Definition cut (k : Link) (ls : list Link) : list Link :=
  filter (fun k' => k' <> k) ls.

(** A link of [ls] joins [a] and [b], in either direction; and a path
    of links of [ls] leads from [a] to [b]. *)
Definition adjacent (ls : list Link) (a b : string) : Prop :=
  exists k, k ∈ ls /\ (endpoints k = (a, b) \/ endpoints k = (b, a)).

Definition joined (ls : list Link) : relation string := rtc (adjacent ls).

(** The nodes one link away from [a]. *)
Definition neighbours (ls : list Link) (a : string) : list string :=
  k ← ls;
  if decide (node_name (node1 k) = a) then [node_name (node2 k)]
  else if decide (node_name (node2 k) = a) then [node_name (node1 k)]
  else [].

(** The nodes found from [seen] in a number of rounds, each round adding
    the neighbours of what was found; and the nodes found from [a] in as
    many rounds as there are links. *)
Fixpoint spread (ls : list Link) (rounds : nat) (seen : list string)
  : list string :=
  match rounds with
  | O => seen
  | S r => spread ls r (remove_dups (seen ++ (seen ≫= neighbours ls)))
  end.

Definition component (ls : list Link) (a : string) : list string :=
  spread ls (length ls) [a].

(** No link of [ls] leaves the set [S]. *)
Definition closedb (ls : list Link) (S : list string) : bool :=
  forallb (fun k => eqb (bool_decide (node_name (node1 k) ∈ S))
                        (bool_decide (node_name (node2 k) ∈ S))) ls.

(** The four switches of the mesh. *)
Definition mesh : list string := [ "s1"; "s2"; "s3"; "s4" ].

(** The texts of the log messages of a log, in order. *)
Definition message_of (c : Call) : option string :=
  match c with CallInfo msg => Some msg | _ => None end.

Definition messages (l : list Call) : list string := omap message_of l.

(** * The blocking loop *)

Lemma block_until_never (ready : nat -> bool) (j n : nat) :
  (forall k, ready k = false) -> block_until ready None j n = None.
Proof.
  intros Hnever. revert j.
  induction n as [|n IH]; intros j; simpl; [reflexivity|].
  rewrite Hnever. apply IH.
Qed.

Lemma block_until_ready (ready : nat -> bool) (d j n : nat) :
  ready (j + d)%nat = true -> (d < n)%nat ->
  exists m, block_until ready None j n = Some (true, m) /\ (n - d - 1 <= m)%nat.
Proof.
  revert j n.
  induction d as [|d IH]; intros j n Hready Hlt.
  - destruct n as [|n]; [lia|]. simpl.
    replace (j + 0)%nat with j in Hready by lia. rewrite Hready.
    exists n. split; [reflexivity | lia].
  - destruct n as [|n]; [lia|]. simpl.
    destruct (ready j).
    + exists n. split; [reflexivity | lia].
    + destruct (IH (S j) n) as (m & Hm & Hle).
      * replace (S j + d)%nat with (j + S d)%nat by lia. exact Hready.
      * lia.
      * exists m. split; [exact Hm | lia].
Qed.

Lemma block_until_returned (ready : nat -> bool) (j n : nat) (r : bool) (m : nat) :
  block_until ready None j n = Some (r, m) ->
  r = true /\ (m < n)%nat /\ exists k, (j <= k)%nat /\ ready k = true.
Proof.
  revert j.
  induction n as [|n IH]; intros j; simpl; [discriminate|].
  destruct (ready j) eqn:Hj.
  - intros [= <- <-]. split; [reflexivity|]. split; [lia|].
    exists j. split; [lia | exact Hj].
  - intros H. destruct (IH _ H) as (-> & Hlt & k & Hk & Hr).
    split; [reflexivity|]. split; [lia|].
    exists k. split; [lia | exact Hr].
Qed.

(** * Running the script *)

(** [run_cases] unfolds the script and splits a goal about a run along
    the three situations. *)
Ltac unfold_script :=
  unfold trace, outcome, run, main, createTopology;
  cbv [mbind M_bind bind mret M_ret ret call blocking_call get_log init
       environ_get setLogLevel info Mininet addController addSwitch addHost
       addLink start waitConnected pingAll CLI stop log fuel].

Ltac run_cases w n :=
  unfold stage; unfold_script;
  let n1 := fresh "n1" in
  destruct (block_until (connected w) None 0 n) as [[? n1]|] eqn:?;
  [ destruct (block_until (cli_exited w) None 0 n1) as [[? ?]|] eqn:? | ].

(** The library calls of a run: the whole declaration, then as much of
    the operation as the stage of the run allows. *)
Lemma calls_run (w : World) (n : nat) :
  calls (trace w n) = declaration (onos_ip w) ++ operation (stage w n).
Proof. run_cases w n; reflexivity. Qed.

Lemma outcome_run (w : World) (n : nat) :
  outcome w n = match stage w n with
                | Finished => Returned tt
                | _ => Pending
                end.
Proof. run_cases w n; reflexivity. Qed.

(** Log messages create nothing. *)
Lemma omap_calls {A} (f : Call -> option A) (l : list Call) :
  (forall c, is_message c = true -> f c = None) ->
  omap f (calls l) = omap f l.
Proof.
  intros Hf. unfold calls.
  induction l as [|c l IH]; [reflexivity|].
  rewrite filter_cons. destruct (is_message c) eqn:Hc.
  - rewrite decide_False by discriminate. simpl. rewrite (Hf c Hc). exact IH.
  - rewrite decide_True by reflexivity. simpl.
    destruct (f c); [f_equal|]; exact IH.
Qed.

Lemma elem_of_calls (c : Call) (l : list Call) :
  c ∈ calls l <-> is_message c = false /\ c ∈ l.
Proof. unfold calls. rewrite list_elem_of_filter. reflexivity. Qed.

Lemma calls_app (l1 l2 : list Call) : calls (l1 ++ l2) = calls l1 ++ calls l2.
Proof. unfold calls. apply filter_app. Qed.

(** The whole network is declared before the first blocking call: what
    a run has created does not depend on how long it is observed. *)
Lemma controllers_run (w : World) (n : nat) :
  controllers (trace w n) =
  [ {| ctrl_name := "c0"; ctrl_cls := RemoteController;
       ctrl_ip := onos_ip w; ctrl_port := 6653 |} ].
Proof.
  unfold controllers.
  rewrite <- omap_calls by (intros []; (discriminate || reflexivity)).
  rewrite calls_run. destruct (stage w n); reflexivity.
Qed.

Lemma switches_run (w : World) (n : nat) :
  switches (trace w n) = script_switches.
Proof.
  unfold switches.
  rewrite <- omap_calls by (intros []; (discriminate || reflexivity)).
  rewrite calls_run. destruct (stage w n); reflexivity.
Qed.

Lemma hosts_run (w : World) (n : nat) :
  hosts (trace w n) = script_hosts.
Proof.
  unfold hosts.
  rewrite <- omap_calls by (intros []; (discriminate || reflexivity)).
  rewrite calls_run. destruct (stage w n); reflexivity.
Qed.

Lemma nodes_run (w : World) (n : nat) :
  nodes (trace w n) = script_switches ++ script_hosts.
Proof.
  unfold nodes.
  rewrite <- omap_calls by (intros []; (discriminate || reflexivity)).
  rewrite calls_run. destruct (stage w n); reflexivity.
Qed.

Lemma links_run (w : World) (n : nat) :
  links (trace w n) = script_links.
Proof.
  unfold links.
  rewrite <- omap_calls by (intros []; (discriminate || reflexivity)).
  rewrite calls_run. destruct (stage w n); reflexivity.
Qed.

(** * The links of the topology *)

(** C1, as the specification words it, fails: a finished run in the lab
    has not created ten links. *)
Lemma ten_links_refuted :
  ~ (length (links (trace lab_world 8)) = 10%nat /\
     Forall (fun k => endpoints k ∈ host_switch_pairs ++ switch_switch_pairs)
            (links (trace lab_world 8))).
Proof. rewrite links_run. intros [Hlen _]. discriminate Hlen. Qed.

(** C1 (amended): every run creates exactly 12 links; their endpoint
    pairs are, in creation order, the 5 host-switch pairs and then the 7
    switch-switch pairs, each once, and so no link has any other
    endpoint pair. *)
Theorem twelve_links (w : World) (n : nat) :
  length (links (trace w n)) = 12%nat /\
  endpoints <$> links (trace w n) = host_switch_pairs ++ switch_switch_pairs /\
  Forall (fun k => endpoints k ∈ host_switch_pairs ++ switch_switch_pairs)
         (links (trace w n)).
Proof.
  rewrite links_run. split; [reflexivity|]. split; [reflexivity|].
  unfold script_links. cbv zeta.
  repeat (apply List.Forall_cons; [unfold endpoints; simpl; set_solver|]).
  apply List.Forall_nil.
Qed.

(** C5: the links of a run are 5 links between a host and a switch,
    each created with bandwidth 100 and delay 5ms, and 7 links between
    two switches, each created with bandwidth 100 and delay 10ms; every
    link is of one of the two kinds, and so no link is created with any
    other bandwidth or delay. *)
Theorem link_parameters (w : World) (n : nat) :
  (fun k => (bw k, delay k))
    <$> filter (fun k => host_to_switch k = true) (links (trace w n))
    = replicate 5 (100, "5ms") /\
  (fun k => (bw k, delay k))
    <$> filter (fun k => switch_to_switch k = true) (links (trace w n))
    = replicate 7 (100, "10ms") /\
  length (links (trace w n)) = 12%nat /\
  Forall (fun k =>
            bw k = 100 /\
            (host_to_switch k = true /\ switch_to_switch k = false /\
             delay k = "5ms"
             \/
             switch_to_switch k = true /\ host_to_switch k = false /\
             delay k = "10ms"))
         (links (trace w n)).
Proof.
  rewrite links_run.
  split; [vm_compute; reflexivity|].
  split; [vm_compute; reflexivity|].
  split; [reflexivity|].
  unfold script_links. cbv zeta.
  repeat (apply List.Forall_cons;
          [split; [reflexivity|];
           first [left; repeat split; reflexivity
                 |right; repeat split; reflexivity]|]).
  apply List.Forall_nil.
Qed.

(** * The nodes of the topology *)

(** C6: for every N in 1..5 the script creates host hN exactly once,
    with the IP address 10.0.0.N/24 and the MAC address
    00:00:00:00:00:0N. *)
Theorem host_addressing (w : World) (n N : nat) :
  (1 <= N <= 5)%nat ->
  filter (fun h => node_name h = "h" +:+ digit N) (hosts (trace w n)) =
  [ Host ("h" +:+ digit N)
         ("10.0.0." +:+ digit N +:+ "/24")
         ("00:00:00:00:00:0" +:+ digit N) ].
Proof.
  intros HN. rewrite hosts_run.
  assert (N = 1 \/ N = 2 \/ N = 3 \/ N = 4 \/ N = 5)%nat
    as [->|[->|[->|[->| ->]]]] by lia;
    vm_compute; reflexivity.
Qed.

Lemma host_addressing_witness :
  (1 <= 3 <= 5)%nat /\
  filter (fun h => node_name h = "h" +:+ digit 3) (hosts (trace lab_world 8)) =
  [ Host "h3" "10.0.0.3/24" "00:00:00:00:00:03" ].
Proof. split; [lia | apply (host_addressing lab_world 8 3); lia]. Defined.

(** C7: exactly 5 switches, s1 to s5, and exactly 5 hosts, h1 to h5,
    are created, ten nodes in all, and every switch is created with the
    protocol version OpenFlow13. *)
Theorem five_switches_five_hosts (w : World) (n : nat) :
  node_name <$> switches (trace w n) = ["s1"; "s2"; "s3"; "s4"; "s5"] /\
  node_name <$> hosts (trace w n) = ["h1"; "h2"; "h3"; "h4"; "h5"] /\
  nodes (trace w n) = switches (trace w n) ++ hosts (trace w n) /\
  Forall (fun s => exists name, s = Switch name OVSKernelSwitch "OpenFlow13")
         (switches (trace w n)).
Proof.
  rewrite switches_run, hosts_run, nodes_run.
  split; [reflexivity|]. split; [reflexivity|]. split; [reflexivity|].
  repeat (apply List.Forall_cons; [eexists; reflexivity|]).
  apply List.Forall_nil.
Qed.

(** * The controller *)

(** C2: every run registers one controller, on port 6653; its address
    is the value of ONOS_IP when the variable is set, whatever string
    that is, and 127.0.0.1 when it is not set. *)
Theorem controller_registration (w : World) (n : nat) :
  controllers (trace w n) =
    [ c0 (match environ w !! "ONOS_IP" with
          | Some v => v
          | None => "127.0.0.1"
          end) ] /\
  (forall v : string,
     controllers (trace (set_environ (<["ONOS_IP" := v]> (environ w)) w) n) =
       [ c0 v ]) /\
  controllers (trace (set_environ (delete "ONOS_IP" (environ w)) w) n) =
    [ c0 "127.0.0.1" ].
Proof.
  split; [|split; [intros v|]]; rewrite controllers_run; unfold onos_ip; simpl.
  - reflexivity.
  - rewrite lookup_insert_eq. reflexivity.
  - rewrite lookup_delete_eq. reflexivity.
Qed.

(** The scenario of the specification: with ONOS_IP=192.168.1.50 the
    controller is registered at 192.168.1.50, port 6653. *)
Example controller_registration_scenario :
  controllers (trace dead_controller_world 5) = [ c0 "192.168.1.50" ].
Proof. rewrite controllers_run. vm_compute. reflexivity. Qed.

(** * The wait for the controller *)

Lemma stage_waiting (w : World) (n : nat) :
  (forall k, connected w k = false) -> stage w n = Waiting.
Proof.
  intros Hnever. unfold stage.
  rewrite block_until_never by exact Hnever. reflexivity.
Qed.

Lemma stage_finished (w : World) (kw kc n : nat) :
  connected w kw = true -> cli_exited w kc = true ->
  (kw + kc + 2 <= n)%nat -> stage w n = Finished.
Proof.
  intros Hw Hc Hn. unfold stage.
  destruct (block_until_ready (connected w) kw 0 n Hw) as (m & -> & Hm); [lia|].
  destruct (block_until_ready (cli_exited w) kc 0 m Hc) as (m' & -> & _); [lia|].
  reflexivity.
Qed.

(** Once the switches report their sessions, the wait returns and the
    script goes on to the probe. *)
Lemma wait_returns (w : World) (k n : nat) :
  connected w k = true -> (k < n)%nat -> CallPingAll ∈ trace w n.
Proof.
  intros Hk Hlt.
  assert (CallPingAll ∈ calls (trace w n)) as Hin; [|apply elem_of_calls in Hin; tauto].
  rewrite calls_run. unfold stage.
  destruct (block_until_ready (connected w) k 0 n Hk Hlt) as (m & -> & _).
  destruct (block_until (cli_exited w) None 0 m) as [[? ?]|];
    simpl; set_solver.
Qed.

(** The calls a run makes while it waits for the controller. *)
Lemma waiting_calls (ip : string) (c : Call) :
  c ∈ declaration ip ++ operation Waiting ->
  c <> CallPingAll /\ c <> CallCLI /\ c <> CallStop.
Proof.
  cbv [declaration operation script_switches script_hosts script_links
       fmap list_fmap add_node add_link tc_link app
       node1 node2 link_cls bw delay].
  intros Hin.
  repeat (apply elem_of_cons in Hin as [->|Hin];
          [repeat split; discriminate|]).
  apply elem_of_nil in Hin. contradiction.
Qed.

Lemma not_reached_while_waiting (w : World) (n : nat) (c : Call) :
  stage w n = Waiting -> is_message c = false -> c ∈ trace w n ->
  c <> CallPingAll /\ c <> CallCLI /\ c <> CallStop.
Proof.
  intros Hst Hc Hin. apply (waiting_calls (onos_ip w)).
  rewrite <- Hst, <- calls_run. apply elem_of_calls. split; assumption.
Qed.

(** C3: the script calls the wait with no timeout, and when no switch
    ever reports a session the run stays inside that call however long
    it is observed: the call is the last entry of the log, the log never
    grows, and the probe, the prompt and the stop are never reached. *)
Theorem wait_blocks_forever (w : World) (n : nat) :
  (forall k, connected w k = false) ->
  outcome w n = Pending /\
  last (trace w n) = Some (CallWaitConnected None) /\
  trace w n = trace w 0 /\
  (CallPingAll ∉ trace w n) /\ (CallCLI ∉ trace w n) /\ (CallStop ∉ trace w n).
Proof.
  intros Hnever.
  split; [rewrite outcome_run, stage_waiting by exact Hnever; reflexivity|].
  split; [|split].
  - unfold_script.
    rewrite !(block_until_never (connected w) 0) by exact Hnever. reflexivity.
  - unfold_script.
    rewrite !(block_until_never (connected w) 0) by exact Hnever. reflexivity.
  - pose proof (stage_waiting w n Hnever) as Hst.
    repeat split; intros Hin;
      apply (not_reached_while_waiting w n _ Hst) in Hin as (? & ? & ?);
      (reflexivity || congruence).
Qed.

Lemma wait_blocks_forever_witness :
  (forall k, connected dead_controller_world k = false) /\
  outcome dead_controller_world 1000 = Pending /\
  last (trace dead_controller_world 1000) = Some (CallWaitConnected None) /\
  (CallPingAll ∉ trace dead_controller_world 1000).
Proof.
  split; [intros k; reflexivity|].
  pose proof (wait_blocks_forever dead_controller_world 1000
                (fun k => eq_refl)) as (Hout & Hlast & _ & Hping & _).
  split; [exact Hout|]. split; [exact Hlast | exact Hping].
Defined.

(** Every wait a run makes carries no timeout. *)
Lemma wait_without_timeout (w : World) (n : nat) (t : option nat) :
  CallWaitConnected t ∈ trace w n -> t = None.
Proof.
  intros Hin.
  assert (CallWaitConnected t ∈ calls (trace w n)) as Hc
    by (apply elem_of_calls; split; [reflexivity | exact Hin]).
  rewrite calls_run in Hc. revert Hc.
  cbv [declaration operation script_switches script_hosts script_links
       fmap list_fmap add_node add_link tc_link app
       node1 node2 link_cls bw delay].
  intros Hc. destruct (stage w n);
    repeat (apply elem_of_cons in Hc as [Heq|Hc]; [congruence|]);
    apply elem_of_nil in Hc; contradiction.
Qed.

(** * The reachability probe *)

(** The probe does measure something: in a lab where no host reaches
    another, all twenty pings of the five hosts are lost. *)
Example probe_all_lost :
  probe dead_controller_world ["h1"; "h2"; "h3"; "h4"; "h5"] =
  {| sent := 20; received := 0 |}.
Proof. vm_compute. reflexivity. Qed.

Example probe_none_lost :
  probe lab_world ["h1"; "h2"; "h3"; "h4"; "h5"] =
  {| sent := 20; received := 20 |}.
Proof. vm_compute. reflexivity. Qed.

Lemma NoDup_calls (ip : string) (st : Stage) :
  NoDup (declaration ip ++ operation st).
Proof.
  cbv [declaration operation script_switches script_hosts script_links
       fmap list_fmap add_node add_link tc_link app
       node1 node2 link_cls bw delay].
  destruct st;
    repeat (apply NoDup_cons_2;
            [repeat (apply not_elem_of_cons; split; [discriminate|]);
             apply not_elem_of_nil|]);
    apply NoDup_nil_2.
Qed.

(** C4: which host pairs fail the probe makes no difference to a run:
    the run is the same for every reachability relation, a run that has
    made the probe has opened the prompt as its next library call, and
    no library call is made twice. *)
Theorem probe_result_ignored (w : World) (r : string -> string -> bool) (n : nat) :
  run (set_reachable r w) n = run w n /\
  (CallPingAll ∈ trace w n ->
   exists pre post, calls (trace w n) = pre ++ CallPingAll :: CallCLI :: post) /\
  NoDup (calls (trace w n)).
Proof.
  split; [|split].
  - unfold_script. cbn [set_reachable environ connected cli_exited].
    destruct (block_until (connected w) None 0 n) as [[? n1]|]; [|reflexivity].
    destruct (block_until (cli_exited w) None 0 n1) as [[? ?]|]; reflexivity.
  - intros Hin. rewrite calls_run.
    destruct (stage w n) eqn:Hst.
    + apply (not_reached_while_waiting w n _ Hst) in Hin as (? & _);
        [congruence | reflexivity].
    + exists (declaration (onos_ip w) ++ [CallStart; CallWaitConnected None]), [].
      rewrite <- app_assoc. reflexivity.
    + exists (declaration (onos_ip w) ++ [CallStart; CallWaitConnected None]),
             [CallStop].
      rewrite <- app_assoc. reflexivity.
  - rewrite calls_run. apply NoDup_calls.
Qed.

Lemma probe_result_ignored_witness :
  CallPingAll ∈ trace lab_world 8 /\
  run (set_reachable (fun _ _ => false) lab_world) 8 = run lab_world 8 /\
  exists pre post,
    calls (trace lab_world 8) = pre ++ CallPingAll :: CallCLI :: post.
Proof.
  assert (CallPingAll ∈ trace lab_world 8) as Hin
    by (apply (wait_returns lab_world 2 8); [reflexivity | lia]).
  split; [exact Hin|].
  pose proof (probe_result_ignored lab_world (fun _ _ => false) 8)
    as (Hrun & Hnext & _).
  split; [exact Hrun | exact (Hnext Hin)].
Defined.

(** * Links join nodes that exist *)

Lemma nodes_cons (c : Call) (l : list Call) :
  nodes (c :: l) = created_by c ++ nodes l.
Proof. unfold nodes, created_by. simpl. destruct (node_of c); reflexivity. Qed.

Lemma links_cons (c : Call) (l : list Call) :
  links (c :: l) = linked_by c ++ links l.
Proof. unfold links, linked_by. simpl. destruct (link_of c); reflexivity. Qed.

Lemma well_linked_sound (pre post : list Call) (c : Call) (k : Link) :
  forall created linked,
    well_linked created linked (pre ++ c :: post) = true ->
    link_of c = Some k ->
    node1 k ∈ created ++ nodes pre /\
    node2 k ∈ created ++ nodes pre /\
    Forall (fun k' => ~ same_ends k' k) (linked ++ links pre).
Proof.
  induction pre as [|c' pre IH]; intros created linked Hwl Hk.
  - simpl in Hwl. rewrite Hk in Hwl.
    apply andb_prop in Hwl as [Hwl _].
    apply andb_prop in Hwl as [Hwl Hfresh].
    apply andb_prop in Hwl as [H1 H2].
    apply bool_decide_eq_true in H1, H2.
    rewrite !app_nil_r. split; [exact H1|]. split; [exact H2|].
    apply List.Forall_forall. intros k' Hin.
    rewrite forallb_forall in Hfresh. specialize (Hfresh k' Hin).
    apply negb_true_iff, bool_decide_eq_false in Hfresh. exact Hfresh.
  - simpl in Hwl. apply andb_prop in Hwl as [_ Hwl].
    destruct (IH _ _ Hwl Hk) as (H1 & H2 & H3).
    rewrite nodes_cons, links_cons, !app_assoc. auto.
Qed.

Lemma well_linked_calls (l : list Call) (created : list Node) (linked : list Link) :
  well_linked created linked (calls l) = well_linked created linked l.
Proof.
  revert created linked. unfold calls.
  induction l as [|c l IH]; intros created linked; [reflexivity|].
  rewrite filter_cons. destruct (is_message c) eqn:Hc.
  - rewrite decide_False by discriminate.
    destruct c; try discriminate Hc; simpl;
      unfold created_by, linked_by; simpl; rewrite !app_nil_r; apply IH.
  - rewrite decide_True by reflexivity. simpl. rewrite IH. reflexivity.
Qed.

Lemma well_linked_run (w : World) (n : nat) :
  well_linked [] [] (trace w n) = true.
Proof.
  rewrite <- well_linked_calls, calls_run.
  destruct (stage w n); vm_compute; reflexivity.
Qed.

(** C8: at every link-creation step of a run both endpoints are nodes
    created earlier in the run, and no earlier link-creation step joins
    the same unordered pair of endpoints. *)
Theorem links_join_created_nodes (w : World) (n : nat)
        (pre post : list Call) (a b : Node) (cls : LinkCls) (bw : Z) (d : string) :
  trace w n = pre ++ CallAddLink a b cls bw d :: post ->
  a ∈ nodes pre /\ b ∈ nodes pre /\
  Forall (fun k' => ~ same_ends k' (Build_Link a b cls bw d)) (links pre).
Proof.
  intros Hsplit. pose proof (well_linked_run w n) as Hwl.
  rewrite Hsplit in Hwl.
  apply (well_linked_sound pre post _ (Build_Link a b cls bw d)) in Hwl;
    [exact Hwl | reflexivity].
Qed.

Lemma links_join_created_nodes_witness :
  trace lab_world 8 =
    take 23 (trace lab_world 8)
    ++ CallAddLink (Switch "s1" OVSKernelSwitch "OpenFlow13")
                   (Switch "s2" OVSKernelSwitch "OpenFlow13") TCLink 100 "10ms"
       :: drop 24 (trace lab_world 8) /\
  Switch "s1" OVSKernelSwitch "OpenFlow13" ∈ nodes (take 23 (trace lab_world 8)) /\
  Switch "s2" OVSKernelSwitch "OpenFlow13" ∈ nodes (take 23 (trace lab_world 8)) /\
  Forall (fun k' =>
            ~ same_ends k' (Build_Link (Switch "s1" OVSKernelSwitch "OpenFlow13")
                                       (Switch "s2" OVSKernelSwitch "OpenFlow13")
                                       TCLink 100 "10ms"))
         (links (take 23 (trace lab_world 8))).
Proof.
  assert (trace lab_world 8 =
            take 23 (trace lab_world 8)
            ++ CallAddLink (Switch "s1" OVSKernelSwitch "OpenFlow13")
                           (Switch "s2" OVSKernelSwitch "OpenFlow13")
                           TCLink 100 "10ms"
               :: drop 24 (trace lab_world 8))
    as Hsplit by (vm_compute; reflexivity).
  split; [exact Hsplit|].
  exact (links_join_created_nodes lab_world 8 _ _ _ _ _ _ _ Hsplit).
Defined.

(** The check does reject a link to a node that is created only later,
    and a second link between the same two nodes, in either direction. *)
Example well_linked_rejects_early_link :
  well_linked [] []
    [ CallAddSwitch "s1" OVSKernelSwitch "OpenFlow13";
      CallAddLink (Switch "s1" OVSKernelSwitch "OpenFlow13")
                  (Switch "s2" OVSKernelSwitch "OpenFlow13") TCLink 100 "10ms";
      CallAddSwitch "s2" OVSKernelSwitch "OpenFlow13" ] = false.
Proof. vm_compute. reflexivity. Qed.

Example well_linked_rejects_duplicate :
  well_linked [] []
    [ CallAddSwitch "s1" OVSKernelSwitch "OpenFlow13";
      CallAddSwitch "s2" OVSKernelSwitch "OpenFlow13";
      CallAddLink (Switch "s1" OVSKernelSwitch "OpenFlow13")
                  (Switch "s2" OVSKernelSwitch "OpenFlow13") TCLink 100 "10ms";
      CallAddLink (Switch "s2" OVSKernelSwitch "OpenFlow13")
                  (Switch "s1" OVSKernelSwitch "OpenFlow13") TCLink 100 "10ms" ]
  = false.
Proof. vm_compute. reflexivity. Qed.

(** * The order of the operations *)

Lemma phases_run (w : World) (n : nat) :
  phases (trace w n) = phases (declaration (onos_ip w) ++ operation (stage w n)).
Proof.
  unfold phases.
  rewrite <- omap_calls by (intros []; (discriminate || reflexivity)).
  rewrite calls_run. reflexivity.
Qed.

Lemma stage_finished_inv (w : World) (n : nat) :
  stage w n = Finished ->
  exists kw kc, connected w kw = true /\ cli_exited w kc = true.
Proof.
  unfold stage.
  destruct (block_until (connected w) None 0 n) as [[r1 n1]|] eqn:Hw;
    [|discriminate].
  destruct (block_until (cli_exited w) None 0 n1) as [[r2 n2]|] eqn:Hc;
    [|discriminate].
  intros _.
  apply block_until_returned in Hw as (_ & _ & kw & _ & Hkw).
  apply block_until_returned in Hc as (_ & _ & kc & _ & Hkc).
  eauto.
Qed.

(** C9: the operations of a run occur in the order of the script: read
    the address, construct the network, register the controller, create
    the switches, the hosts, the links, start, wait, probe, prompt,
    stop.  Every run goes through an initial part of that order; a run
    whose switches connect and whose operator leaves the prompt goes
    through all of it and returns; and the network is stopped only in a
    run whose prompt has been left. *)
Theorem operations_in_order (w : World) (n : nat) :
  phases (trace w n) `prefix_of` script_order /\
  (forall kw kc, connected w kw = true -> cli_exited w kc = true ->
                 (kw + kc + 2 <= n)%nat ->
                 phases (trace w n) = script_order /\ outcome w n = Returned tt) /\
  (CallStop ∈ trace w n ->
   (exists k, cli_exited w k = true) /\
   phases (trace w n) = script_order /\ outcome w n = Returned tt).
Proof.
  split; [|split].
  - rewrite phases_run. destruct (stage w n).
    + exists [Probe; Interactive; StopNetwork]. reflexivity.
    + exists [StopNetwork]. reflexivity.
    + exists []. reflexivity.
  - intros kw kc Hw Hc Hn.
    rewrite phases_run, outcome_run, (stage_finished w kw kc n Hw Hc Hn).
    split; reflexivity.
  - intros Hin.
    assert (stage w n = Finished) as Hst.
    { assert (CallStop ∈ calls (trace w n)) as Hc
        by (apply elem_of_calls; split; [reflexivity | exact Hin]).
      rewrite calls_run in Hc. revert Hc.
      cbv [declaration operation script_switches script_hosts script_links
           fmap list_fmap add_node add_link tc_link app
           node1 node2 link_cls bw delay].
      destruct (stage w n); [| |reflexivity]; intros Hc;
        repeat (apply elem_of_cons in Hc as [Heq|Hc]; [discriminate Heq|]);
        apply elem_of_nil in Hc; contradiction. }
    rewrite phases_run, outcome_run, Hst.
    destruct (stage_finished_inv w n Hst) as (kw & kc & _ & Hkc).
    split; [eauto|]. split; reflexivity.
Qed.

Lemma operations_in_order_witness :
  connected lab_world 2 = true /\ cli_exited lab_world 2 = true /\
  (2 + 2 + 2 <= 8)%nat /\
  phases (trace lab_world 8) = script_order /\
  outcome lab_world 8 = Returned tt.
Proof.
  split; [reflexivity|]. split; [reflexivity|]. split; [lia|].
  pose proof (operations_in_order lab_world 8) as (_ & Hfull & _).
  apply (Hfull 2%nat 2%nat); [reflexivity | reflexivity | lia].
Defined.

(** * The environment and the topology *)

Lemma stage_set_environ (env : gmap string string) (w : World) (n : nat) :
  stage (set_environ env w) n = stage w n.
Proof. reflexivity. Qed.

Lemma blank_declaration (ip ip' : string) :
  blank_ip <$> declaration ip = blank_ip <$> declaration ip'.
Proof. reflexivity. Qed.

(** The first log message of a run shows the resolved address. *)
Lemma banner_shows_address (w : World) (n : nat) :
  trace w n !! 1%nat =
  Some (CallInfo ("*** Creating network with ONOS controller at "
                  +:+ onos_ip w +:+ nl)).
Proof. run_cases w n; reflexivity. Qed.

(** C10, as the specification words it, fails: the topology is the
    same, but the address of the controller is not the only thing of a
    run that ONOS_IP changes.  With the address argument of the
    controller registration blanked out, the logs of two runs of the lab
    that differ in ONOS_IP alone still differ: in the message that
    announces the address. *)
Lemma only_ip_field_refuted :
  ~ (nodes (trace (set_environ {[ "ONOS_IP" := "10.9.8.7" ]} lab_world) 8) =
       nodes (trace lab_world 8) /\
     links (trace (set_environ {[ "ONOS_IP" := "10.9.8.7" ]} lab_world) 8) =
       links (trace lab_world 8) /\
     blank_ip <$> trace (set_environ {[ "ONOS_IP" := "10.9.8.7" ]} lab_world) 8 =
       blank_ip <$> trace lab_world 8).
Proof.
  intros (_ & _ & Hlog).
  apply (f_equal (fun l => l !! 1%nat)) in Hlog.
  vm_compute in Hlog. discriminate Hlog.
Qed.

(** C10 (amended): the topology a run constructs does not depend on the
    environment, nor on anything else outside the script: any two runs
    create the same nodes in the same order and the same links, with the
    same parameters, and register one controller with the same name,
    class and port.  ONOS_IP shows in two places of a run, and in no
    other: the address argument of the controller registration and the
    text of the log message that announces that address.  Replacing the
    environment of a run changes nothing else in its log, messages
    included. *)
Theorem topology_independent_of_environment
        (w1 w2 : World) (n1 n2 : nat) (env : gmap string string) :
  nodes (trace w1 n1) = nodes (trace w2 n2) /\
  links (trace w1 n1) = links (trace w2 n2) /\
  (exists ip1 ip2,
     controllers (trace w1 n1) = [ c0 ip1 ] /\
     controllers (trace w2 n2) = [ c0 ip2 ] /\
     trace w1 n1 !! 1%nat =
       Some (CallInfo ("*** Creating network with ONOS controller at "
                       +:+ ip1 +:+ nl)) /\
     trace w2 n2 !! 1%nat =
       Some (CallInfo ("*** Creating network with ONOS controller at "
                       +:+ ip2 +:+ nl))) /\
  blank_ip <$> calls (trace (set_environ env w1) n1) =
  blank_ip <$> calls (trace w1 n1) /\
  blank_address (trace (set_environ env w1) n1) = blank_address (trace w1 n1).
Proof.
  split; [rewrite !nodes_run; reflexivity|].
  split; [rewrite !links_run; reflexivity|].
  split; [|split].
  - exists (onos_ip w1), (onos_ip w2). rewrite !controllers_run.
    split; [reflexivity|]. split; [reflexivity|].
    split; apply banner_shows_address.
  - rewrite !calls_run, stage_set_environ, !fmap_app.
    rewrite (blank_declaration _ (onos_ip w1)). reflexivity.
  - unfold blank_address. unfold_script.
    cbn [set_environ environ connected cli_exited].
    destruct (block_until (connected w1) None 0 n1) as [[? m]|]; [|reflexivity].
    destruct (block_until (cli_exited w1) None 0 m) as [[? ?]|]; reflexivity.
Qed.

(** Two runs in environments that name different controllers do differ
    in the address they register. *)
Example addresses_differ :
  controllers (trace dead_controller_world 5) <> controllers (trace lab_world 5).
Proof. rewrite !controllers_run. vm_compute. discriminate. Qed.

(** * The main block *)

(** The script run as a program sets the log level and then runs
    [createTopology]. *)
Lemma main_run (w : World) (n : nat) :
  calls (log (main w (init n)).1) = calls (trace w n).
Proof. run_cases w n; reflexivity. Qed.

(** A run of the main block is a run of [createTopology] after one call
    that sets the log level to info: the log of the one is the log of
    the other behind that call, and the two end alike. *)
Theorem main_sets_log_level_first (w : World) (n : nat) :
  log (main w (init n)).1 = CallSetLogLevel "info" :: trace w n /\
  (main w (init n)).2 = outcome w n /\
  fuel (main w (init n)).1 = fuel (run w n).1.
Proof. run_cases w n; repeat split; reflexivity. Qed.

(** * What the environment can change *)

(** The script reads nothing of the environment but ONOS_IP: a run in
    an environment that gives ONOS_IP the same value, or leaves it unset
    as well, is the same run, log messages included. *)
Theorem only_onos_ip_is_read (w : World) (env : gmap string string) (n : nat) :
  env !! "ONOS_IP" = environ w !! "ONOS_IP" ->
  run (set_environ env w) n = run w n.
Proof.
  intros Henv. unfold_script. cbn [set_environ environ connected cli_exited].
  rewrite Henv.
  destruct (block_until (connected w) None 0 n) as [[? n1]|]; [|reflexivity].
  destruct (block_until (cli_exited w) None 0 n1) as [[? ?]|]; reflexivity.
Qed.

Lemma only_onos_ip_is_read_witness :
  ({[ "HOME" := "/root"; "PATH" := "/usr/bin" ]} : gmap string string)
    !! "ONOS_IP" = environ lab_world !! "ONOS_IP" /\
  run (set_environ {[ "HOME" := "/root"; "PATH" := "/usr/bin" ]} lab_world) 8
  = run lab_world 8.
Proof.
  assert (({[ "HOME" := "/root"; "PATH" := "/usr/bin" ]} : gmap string string)
            !! "ONOS_IP" = environ lab_world !! "ONOS_IP") as Henv
    by (vm_compute; reflexivity).
  split; [exact Henv|].
  exact (only_onos_ip_is_read lab_world _ 8 Henv).
Defined.

(** The address a run announces in its first log message is the address
    it registers the controller with. *)
Theorem banner_matches_registration (w : World) (n : nat) :
  exists ip,
    trace w n !! 1%nat =
      Some (CallInfo ("*** Creating network with ONOS controller at "
                      +:+ ip +:+ nl)) /\
    ctrl_ip <$> controllers (trace w n) = [ ip ].
Proof.
  exists (onos_ip w). split; [apply banner_shows_address|].
  rewrite controllers_run. reflexivity.
Qed.

(** * The topology as a graph *)

Lemma adjacent_sym (ls : list Link) (a b : string) :
  adjacent ls a b -> adjacent ls b a.
Proof. intros (k & Hk & [H|H]); exists k; auto. Qed.

Lemma joined_sym (ls : list Link) (a b : string) :
  joined ls a b -> joined ls b a.
Proof.
  unfold joined. induction 1 as [|a b c Hab _ IH]; [reflexivity|].
  eapply rtc_r; [exact IH | apply adjacent_sym, Hab].
Qed.

Lemma neighbours_adjacent (ls : list Link) (a b : string) :
  b ∈ neighbours ls a -> adjacent ls a b.
Proof.
  unfold neighbours. intros Hin.
  apply list_elem_of_bind in Hin as (k & Hb & Hk).
  exists k. split; [exact Hk|]. unfold endpoints.
  destruct (decide (node_name (node1 k) = a)) as [<-|_].
  - apply list_elem_of_singleton in Hb as ->. left. reflexivity.
  - destruct (decide (node_name (node2 k) = a)) as [<-|_].
    + apply list_elem_of_singleton in Hb as ->. right. reflexivity.
    + apply elem_of_nil in Hb. contradiction.
Qed.

Lemma spread_sound (ls : list Link) (a : string) (rounds : nat) :
  forall seen,
    (forall x, x ∈ seen -> joined ls a x) ->
    forall x, x ∈ spread ls rounds seen -> joined ls a x.
Proof.
  induction rounds as [|r IH]; intros seen Hseen x Hx; [exact (Hseen x Hx)|].
  simpl in Hx. apply (IH _) in Hx; [exact Hx|].
  intros y Hy. apply elem_of_remove_dups, elem_of_app in Hy as [Hy|Hy].
  - exact (Hseen y Hy).
  - apply list_elem_of_bind in Hy as (z & Hy & Hz).
    eapply rtc_r; [exact (Hseen z Hz) | exact (neighbours_adjacent _ _ _ Hy)].
Qed.

Lemma component_sound (ls : list Link) (a b : string) :
  b ∈ component ls a -> joined ls a b.
Proof.
  apply spread_sound. intros x Hx.
  apply list_elem_of_singleton in Hx as ->. reflexivity.
Qed.

(** Nodes that are all found from one root are joined to each other. *)
Lemma spanning (ls : list Link) (root : string) (names : list string) :
  forallb (fun x => bool_decide (x ∈ component ls root)) names = true ->
  forall a b, a ∈ names -> b ∈ names -> joined ls a b.
Proof.
  intros Hall a b Ha Hb. rewrite forallb_forall in Hall.
  assert (forall x, x ∈ names -> joined ls root x) as Hroot.
  { intros x Hx. apply component_sound.
    apply list_elem_of_In, Hall in Hx. apply bool_decide_eq_true in Hx. exact Hx. }
  etrans; [apply joined_sym, Hroot, Ha | apply Hroot, Hb].
Qed.

Lemma closedb_sound (ls : list Link) (S : list string) (a b : string) :
  closedb ls S = true -> adjacent ls a b -> a ∈ S -> b ∈ S.
Proof.
  unfold closedb. rewrite forallb_forall. intros Hall (k & Hk & Hab) Ha.
  apply list_elem_of_In, Hall, eqb_prop in Hk. unfold endpoints in Hab.
  destruct Hab as [[= H1 H2]|[= H1 H2]]; rewrite H1, H2 in Hk.
  - rewrite bool_decide_eq_true_2 in Hk by exact Ha.
    symmetry in Hk. apply bool_decide_eq_true in Hk. exact Hk.
  - rewrite (bool_decide_eq_true_2 (a ∈ S)) in Hk by exact Ha.
    apply bool_decide_eq_true in Hk. exact Hk.
Qed.

(** No path leaves a set that no link leaves. *)
Lemma separated (ls : list Link) (S : list string) (a b : string) :
  closedb ls S = true -> a ∈ S -> b ∉ S -> ~ joined ls a b.
Proof.
  intros Hclosed Ha Hb Hab. apply Hb. clear Hb.
  induction Hab as [|a b c Hab _ IH]; [exact Ha|].
  apply IH. exact (closedb_sound ls S a b Hclosed Hab Ha).
Qed.

(** The search does tell a cut network from a whole one. *)
Example component_of_a_cut_network :
  component (cut (tc_link (Switch "s3" OVSKernelSwitch "OpenFlow13")
                          (Switch "s5" OVSKernelSwitch "OpenFlow13") "10ms")
                 script_links) "h5" = [ "h5"; "s5" ].
Proof. vm_compute. reflexivity. Qed.

Ltac by_compute := apply (bool_decide_unpack _); vm_compute; exact I.

Ltac link_cases Hk :=
  unfold script_links in Hk; cbv zeta in Hk;
  repeat (apply elem_of_cons in Hk as [->|Hk]);
  [..|apply elem_of_nil in Hk; contradiction].

(** The network a run declares is connected: a path of links leads
    from every node to every other node. *)
Theorem topology_connected (w : World) (n : nat) (a b : string) :
  a ∈ node_name <$> nodes (trace w n) ->
  b ∈ node_name <$> nodes (trace w n) ->
  joined (links (trace w n)) a b.
Proof.
  rewrite nodes_run, links_run.
  apply (spanning _ "s1"). vm_compute. reflexivity.
Qed.

Lemma topology_connected_witness :
  "h1" ∈ node_name <$> nodes (trace lab_world 8) /\
  "h5" ∈ node_name <$> nodes (trace lab_world 8) /\
  joined (links (trace lab_world 8)) "h1" "h5".
Proof.
  assert ("h1" ∈ node_name <$> nodes (trace lab_world 8)) as H1 by by_compute.
  assert ("h5" ∈ node_name <$> nodes (trace lab_world 8)) as H5 by by_compute.
  split; [exact H1|]. split; [exact H5|].
  exact (topology_connected lab_world 8 "h1" "h5" H1 H5).
Defined.

(** The paths between the four switches of the mesh are redundant:
    without any one link between two of s1..s4 the network is still
    connected. *)
Theorem mesh_link_redundant (w : World) (n : nat) (k : Link) (a b : string) :
  k ∈ links (trace w n) ->
  switch_to_switch k = true -> touches "s5" k = false ->
  a ∈ node_name <$> nodes (trace w n) ->
  b ∈ node_name <$> nodes (trace w n) ->
  joined (cut k (links (trace w n))) a b.
Proof.
  rewrite nodes_run, links_run. intros Hk Hss Hs5.
  link_cases Hk;
    first [ vm_compute in Hss; discriminate Hss
          | vm_compute in Hs5; discriminate Hs5
          | apply (spanning _ "s1"); vm_compute; reflexivity ].
Qed.

Lemma mesh_link_redundant_witness :
  tc_link (Switch "s1" OVSKernelSwitch "OpenFlow13")
          (Switch "s2" OVSKernelSwitch "OpenFlow13") "10ms"
    ∈ links (trace lab_world 8) /\
  "h1" ∈ node_name <$> nodes (trace lab_world 8) /\
  "h2" ∈ node_name <$> nodes (trace lab_world 8) /\
  joined (cut (tc_link (Switch "s1" OVSKernelSwitch "OpenFlow13")
                       (Switch "s2" OVSKernelSwitch "OpenFlow13") "10ms")
              (links (trace lab_world 8))) "h1" "h2".
Proof.
  assert (tc_link (Switch "s1" OVSKernelSwitch "OpenFlow13")
                  (Switch "s2" OVSKernelSwitch "OpenFlow13") "10ms"
            ∈ links (trace lab_world 8)) as Hk by by_compute.
  assert ("h1" ∈ node_name <$> nodes (trace lab_world 8)) as H1 by by_compute.
  assert ("h2" ∈ node_name <$> nodes (trace lab_world 8)) as H2 by by_compute.
  split; [exact Hk|]. split; [exact H1|]. split; [exact H2|].
  exact (mesh_link_redundant lab_world 8 _ "h1" "h2" Hk eq_refl eq_refl H1 H2).
Defined.

(** The links to the hosts and the link between s3 and s5 are not
    redundant: without any one of them no path leads from one of its
    ends to the other. *)
Theorem host_and_s5_links_are_bridges (w : World) (n : nat) (k : Link) :
  k ∈ links (trace w n) ->
  host_to_switch k = true \/ touches "s5" k = true ->
  ~ joined (cut k (links (trace w n)))
           (node_name (node1 k)) (node_name (node2 k)).
Proof.
  rewrite links_run. intros Hk Hor.
  link_cases Hk;
    first [ destruct Hor as [H|H]; vm_compute in H; discriminate H
          | match goal with
            | |- ~ joined ?ls ?a ?b =>
                apply (separated ls (component ls a));
                [ vm_compute; reflexivity | by_compute | by_compute ]
            end ].
Qed.

Lemma host_and_s5_links_are_bridges_witness :
  tc_link (Switch "s3" OVSKernelSwitch "OpenFlow13")
          (Switch "s5" OVSKernelSwitch "OpenFlow13") "10ms"
    ∈ links (trace lab_world 8) /\
  ~ joined (cut (tc_link (Switch "s3" OVSKernelSwitch "OpenFlow13")
                         (Switch "s5" OVSKernelSwitch "OpenFlow13") "10ms")
                (links (trace lab_world 8))) "s3" "s5".
Proof.
  assert (tc_link (Switch "s3" OVSKernelSwitch "OpenFlow13")
                  (Switch "s5" OVSKernelSwitch "OpenFlow13") "10ms"
            ∈ links (trace lab_world 8)) as Hk by by_compute.
  split; [exact Hk|].
  exact (host_and_s5_links_are_bridges lab_world 8 _ Hk (or_intror eq_refl)).
Defined.

(** The switches s1..s4 form a full mesh: every two of them are joined
    by a link, and by one link only. *)
Theorem mesh_complete (w : World) (n : nat) (a b : string) :
  a ∈ mesh -> b ∈ mesh -> a <> b ->
  adjacent (links (trace w n)) a b /\
  length (filter (fun k => endpoints k = (a, b) \/ endpoints k = (b, a))
                 (links (trace w n))) = 1%nat.
Proof.
  rewrite links_run. unfold mesh. intros Ha Hb Hne.
  repeat (apply elem_of_cons in Ha as [->|Ha]);
    [..|apply elem_of_nil in Ha; contradiction];
    (repeat (apply elem_of_cons in Hb as [->|Hb]);
     [..|apply elem_of_nil in Hb; contradiction]);
    try congruence;
    (split; [apply neighbours_adjacent; by_compute | vm_compute; reflexivity]).
Qed.

Lemma mesh_complete_witness :
  "s4" ∈ mesh /\ "s1" ∈ mesh /\ "s4" <> "s1" /\
  adjacent (links (trace lab_world 8)) "s4" "s1".
Proof.
  assert ("s4" ∈ mesh) as H4 by by_compute.
  assert ("s1" ∈ mesh) as H1 by by_compute.
  assert ("s4" <> "s1") as Hne by discriminate.
  split; [exact H4|]. split; [exact H1|]. split; [exact Hne|].
  exact (proj1 (mesh_complete lab_world 8 "s4" "s1" H4 H1 Hne)).
Defined.

Ltac node_cases H :=
  unfold script_hosts, script_switches in H;
  repeat (apply elem_of_cons in H as [->|H]);
  [..|apply elem_of_nil in H; contradiction].

(** Every host has one link only, and it leads from the host to the
    switch with the number of the host. *)
Theorem host_has_one_link (w : World) (n : nat) (h : Node) :
  h ∈ hosts (trace w n) ->
  exists s, s ∈ switches (trace w n) /\
            node_number s = node_number h /\
            links_at (links (trace w n)) (node_name h) = [ tc_link h s "5ms" ].
Proof.
  rewrite hosts_run, switches_run, links_run. intros Hh.
  node_cases Hh;
    [ exists (Switch "s1" OVSKernelSwitch "OpenFlow13")
    | exists (Switch "s2" OVSKernelSwitch "OpenFlow13")
    | exists (Switch "s3" OVSKernelSwitch "OpenFlow13")
    | exists (Switch "s4" OVSKernelSwitch "OpenFlow13")
    | exists (Switch "s5" OVSKernelSwitch "OpenFlow13") ];
    (split; [by_compute|]; split; vm_compute; reflexivity).
Qed.

Lemma host_has_one_link_witness :
  Host "h5" "10.0.0.5/24" "00:00:00:00:00:05" ∈ hosts (trace lab_world 8) /\
  exists s, s ∈ switches (trace lab_world 8) /\
            node_number s = "5" /\
            links_at (links (trace lab_world 8)) "h5" =
              [ tc_link (Host "h5" "10.0.0.5/24" "00:00:00:00:00:05") s "5ms" ].
Proof.
  assert (Host "h5" "10.0.0.5/24" "00:00:00:00:00:05" ∈ hosts (trace lab_world 8))
    as Hh by by_compute.
  split; [exact Hh|].
  exact (host_has_one_link lab_world 8 _ Hh).
Defined.

(** At every switch the first link created is the link to its host, the
    host with the number of the switch, and it is the only link of the
    switch to a host. *)
Theorem switch_first_link_is_its_host (w : World) (n : nat) (s : Node) :
  s ∈ switches (trace w n) ->
  exists h, h ∈ hosts (trace w n) /\
            node_number h = node_number s /\
            head (links_at (links (trace w n)) (node_name s))
              = Some (tc_link h s "5ms") /\
            filter (fun k => host_to_switch k = true)
                   (links_at (links (trace w n)) (node_name s))
              = [ tc_link h s "5ms" ].
Proof.
  rewrite hosts_run, switches_run, links_run. intros Hs.
  node_cases Hs;
    [ exists (Host "h1" "10.0.0.1/24" "00:00:00:00:00:01")
    | exists (Host "h2" "10.0.0.2/24" "00:00:00:00:00:02")
    | exists (Host "h3" "10.0.0.3/24" "00:00:00:00:00:03")
    | exists (Host "h4" "10.0.0.4/24" "00:00:00:00:00:04")
    | exists (Host "h5" "10.0.0.5/24" "00:00:00:00:00:05") ];
    (split; [by_compute|]; repeat split; vm_compute; reflexivity).
Qed.

Lemma switch_first_link_is_its_host_witness :
  Switch "s3" OVSKernelSwitch "OpenFlow13" ∈ switches (trace lab_world 8) /\
  exists h, h ∈ hosts (trace lab_world 8) /\
            node_number h = "3" /\
            head (links_at (links (trace lab_world 8)) "s3")
              = Some (tc_link h (Switch "s3" OVSKernelSwitch "OpenFlow13") "5ms").
Proof.
  assert (Switch "s3" OVSKernelSwitch "OpenFlow13" ∈ switches (trace lab_world 8))
    as Hs by by_compute.
  split; [exact Hs|].
  destruct (switch_first_link_is_its_host lab_world 8 _ Hs)
    as (h & Hh & Hnum & Hhead & _).
  exists h. split; [exact Hh|]. split; [exact Hnum | exact Hhead].
Defined.

(** The identities a run hands out do not collide: no two nodes share a
    name, every host has an IP address and a MAC address that no other
    host has, and no link joins a node to itself. *)
Theorem identities_do_not_collide (w : World) (n : nat) :
  NoDup (node_name <$> nodes (trace w n)) /\
  NoDup (omap node_ip (hosts (trace w n))) /\
  NoDup (omap node_mac (hosts (trace w n))) /\
  length (omap node_ip (hosts (trace w n))) = length (hosts (trace w n)) /\
  length (omap node_mac (hosts (trace w n))) = length (hosts (trace w n)) /\
  Forall (fun k => node_name (node1 k) <> node_name (node2 k))
         (links (trace w n)).
Proof.
  rewrite nodes_run, hosts_run, links_run.
  split; [by_compute|]. split; [by_compute|]. split; [by_compute|].
  split; [reflexivity|]. split; [reflexivity|]. by_compute.
Qed.

(** * When the script returns *)

(** [createTopology] returns in some observation exactly when the
    switches report their sessions at some poll and the operator leaves
    the prompt at some point. *)
Theorem returns_iff_connected_and_exited (w : World) :
  (exists n, outcome w n = Returned tt) <->
  (exists k, connected w k = true) /\ (exists k, cli_exited w k = true).
Proof.
  split.
  - intros (n & Hret). rewrite outcome_run in Hret.
    destruct (stage w n) eqn:Hst; try discriminate Hret.
    destruct (stage_finished_inv w n Hst) as (kw & kc & Hw & Hc). eauto.
  - intros ((kw & Hw) & (kc & Hc)). exists (kw + kc + 2)%nat.
    rewrite outcome_run, (stage_finished w kw kc _ Hw Hc); [reflexivity | lia].
Qed.

Lemma returns_iff_connected_and_exited_witness :
  ((exists k, connected lab_world k = true) /\
   (exists k, cli_exited lab_world k = true)) /\
  exists n, outcome lab_world n = Returned tt.
Proof.
  assert ((exists k, connected lab_world k = true) /\
          (exists k, cli_exited lab_world k = true)) as Hboth
    by (split; exists 2%nat; reflexivity).
  split; [exact Hboth|].
  exact (proj2 (returns_iff_connected_and_exited lab_world) Hboth).
Defined.

(** * What the operator sees *)

(** While a run waits for a controller that no switch ever reaches, the
    last message it has logged is the one that announces the wait. *)
Theorem hang_shows_waiting_message (w : World) (n : nat) :
  (forall k, connected w k = false) ->
  last (messages (trace w n)) =
  Some ("*** Waiting for switches to connect to ONOS..." +:+ nl).
Proof.
  intros Hnever. unfold_script.
  rewrite (block_until_never (connected w) 0) by exact Hnever. reflexivity.
Qed.

Lemma hang_shows_waiting_message_witness :
  (forall k, connected dead_controller_world k = false) /\
  last (messages (trace dead_controller_world 1000)) =
  Some ("*** Waiting for switches to connect to ONOS..." +:+ nl).
Proof.
  split; [intros k; reflexivity|].
  exact (hang_shows_waiting_message dead_controller_world 1000
                                    (fun k => eq_refl)).
Defined.
